(** * Mesh fairing operators: a shallow embedding of [operators.py]

    This development embeds the two fairing operators of the add-on
    ([MESH_OT_fair_vertices_internal] for edit mode and
    [SCULPT_OT_fair_vertices_internal] for sculpt mode): their worker
    threads, their [modal] handlers and their [invoke] methods.

    The worker threads are written in a small state-and-exception monad.
    The state holds the cancellation flag shared with the interactive
    thread, the worker's status label, the BMesh the worker edits, the
    mesh data block and an event log.  The interactive thread may call
    [cancel()] between any two atomic actions of the worker: this is the
    oracle [ext], consulted once before every atomic action.

    The numerical solver [geometry.fair], the face-set helpers of
    [geometry] and Blender's [bmesh.ops.triangulate] are not part of the
    embedded file; they are left abstract (record [Host]) and every
    theorem below holds for all of them. *)

From Stdlib Require Import Bool Arith List String QArith ZArith Lia.
Import ListNotations.
Open Scope string_scope.
Open Scope list_scope.

(** ** Enumerations of [types] *)

(** Modelled from the spec: [types.Continuity] (the module [types] is not
    in the embedded sources); POSITION = 1, TANGENT = 2, CURVATURE = 3. *)
Inductive Continuity := POS | TAN | CURV.

Definition continuity_value (c : Continuity) : nat :=
  match c with POS => 1 | TAN => 2 | CURV => 3 end.

Module VertexWeight.
Inductive t := UNIFORM | VORONOI.
End VertexWeight.

Module LoopWeight.
Inductive t := UNIFORM | COTAN.
End LoopWeight.

(** ** Meshes

    A vertex is identified by its index in [verts], a face by its index
    in [faces]; a face lists the indices of its vertices.  The paint-mask
    layer, when present, gives every vertex a mask value. *)

Record BVert := mkBVert {
  co : Q * Q * Q;
  select : bool;
  mask : Q
}.

Record BMesh := mkBMesh {
  verts : list BVert;
  faces : list (list nat);
  has_mask_layer : bool;
  is_valid : bool
}.

(** [bmesh.new()]: the empty BMesh created by [types.BMeshGuard]. *)
Definition bmesh_new : BMesh := mkBMesh [] [] false true.

(** Indices [i + k] of the elements of [xs] satisfying [p]. *)
Fixpoint indices_where {A} (p : A -> bool) (xs : list A) (i : nat) : list nat :=
  match xs with
  | [] => []
  | x :: xs' => (if p x then [i] else []) ++ indices_where p xs' (S i)
  end.

(** [v.link_faces]: the faces that use vertex [vi]. *)
Definition link_faces (m : BMesh) (vi : nat) : list nat :=
  indices_where (fun f => existsb (Nat.eqb vi) f) (faces m) 0.

(** [bpy.types.Mesh.total_vert_sel]: the number of selected vertices. *)
Definition total_vert_sel (m : BMesh) : nat :=
  List.length (filter select (verts m)).

(** ** External operations *)

Record Host := mkHost {
  (** [geometry.fair(verts, order, vertex_weights, loop_weights,
      cancel_event, status)]: reads the cancellation flag, may move the
      affected vertices, and returns whether it succeeded. *)
  fair : list nat -> nat -> VertexWeight.t -> LoopWeight.t -> bool ->
         BMesh -> bool * BMesh;
  (** [bmesh.ops.triangulate(bm, faces = ...)] *)
  triangulate : list nat -> BMesh -> BMesh;
  (** [geometry.get_boundary_faces(faces)] *)
  get_boundary_faces : list nat -> list nat;
  (** [geometry.expand_faces(faces, rings)] *)
  expand_faces : list nat -> nat -> list nat
}.

(** ** Worker events and state *)

Inductive Event :=
| EvStatus (label : string)
| EvPoll (cancelled : bool)
| EvCancel
| EvWarn (msg : string)
| EvFromEditMesh
| EvFromMesh
| EvAffected (vs : list nat)
| EvTriangulate (fs : list nat)
| EvSelectFlush
| EvFair (order : nat) (vw : VertexWeight.t) (lw : LoopWeight.t) (ok : bool)
| EvNormalUpdate
| EvUpdateEditMesh
| EvToMesh
| EvMeshUpdate.

(** The log records every atomic action of the worker together with the
    value of the cancellation flag right after it. *)
Record St := mkSt {
  flag : bool;
  clock : nat;
  status : string;
  bm : BMesh;
  mesh : BMesh;
  log : list (bool * Event)
}.

Definition set_flag (b : bool) (s : St) : St :=
  mkSt b (clock s) (status s) (bm s) (mesh s) (log s).
Definition set_status_field (l : string) (s : St) : St :=
  mkSt (flag s) (clock s) l (bm s) (mesh s) (log s).
Definition set_bm (m : BMesh) (s : St) : St :=
  mkSt (flag s) (clock s) (status s) m (mesh s) (log s).
Definition set_mesh (m : BMesh) (s : St) : St :=
  mkSt (flag s) (clock s) (status s) (bm s) m (log s).
Definition push_log (e : Event) (s : St) : St :=
  mkSt (flag s) (clock s) (status s) (bm s) (mesh s) (log s ++ [(flag s, e)]).

(** The thread starts with a fresh, unset [threading.Event]. *)
Definition init_state (m : BMesh) : St := mkSt false 0 "" bmesh_new m [].

(** ** The worker monad *)

Inductive Exn := NameError.

Definition M (A : Type) : Type := St -> (Exn + A) * St.

Definition ret {A} (a : A) : M A := fun s => (inr a, s).

Definition bind {A B} (m : M A) (k : A -> M B) : M B :=
  fun s => match m s with
           | (inl e, s') => (inl e, s')
           | (inr a, s') => k a s'
           end.

Notation "x <- m ;; k" := (bind m (fun x => k))
  (at level 61, m at next level, right associativity).
Notation "m ;; k" := (bind m (fun _ => k))
  (at level 61, right associativity).

Definition gets {A} (f : St -> A) : M A := fun s => (inr (f s), s).

(** A name read before it was bound: Python raises [NameError]. *)
Definition need {A} (o : option A) : M A :=
  fun s => match o with Some a => (inr a, s) | None => (inl NameError, s) end.

(** Which BMesh a worker edits: in edit mode [bmesh.from_edit_mesh] wraps
    the mesh's own edit data, so the worker writes the mesh itself; in
    sculpt mode the worker writes a private BMesh copy. *)
Record Lens := mkLens { view : St -> BMesh; update : BMesh -> St -> St }.

Definition mesh_lens : Lens := mkLens mesh set_mesh.
Definition bm_lens : Lens := mkLens bm set_bm.

Section Worker.

Context (H : Host).

(** [ext k]: the interactive thread has called [cancel()] right before
    the worker's [k]-th atomic action. *)
Context (ext : nat -> bool).

Definition env (s : St) : St :=
  mkSt (flag s || ext (clock s)) (S (clock s)) (status s) (bm s) (mesh s) (log s).

Definition atomic {A} (f : St -> A * St * Event) : M A :=
  fun s0 =>
    let s := env s0 in
    match f s with
    | (a, s', e) => (inr a, push_log e s')
    end.

Definition set_status (l : string) : M unit :=
  atomic (fun s => (tt, set_status_field l s, EvStatus l)).

Definition is_cancelled : M bool :=
  atomic (fun s => (flag s, s, EvPoll (flag s))).

Definition cancel : M unit :=
  atomic (fun s => (tt, set_flag true s, EvCancel)).

Definition warn (msg : string) : M unit :=
  atomic (fun s => (tt, s, EvWarn msg)).

Definition from_edit_mesh : M unit :=
  atomic (fun s => (tt, s, EvFromEditMesh)).

Definition from_mesh : M unit :=
  atomic (fun s => (tt, set_bm (mesh s) s, EvFromMesh)).

(** [[v for v in bm.verts if p(v)]] *)
Definition select_verts (L : Lens) (p : BVert -> bool) : M (list nat) :=
  atomic (fun s => let l := indices_where p (verts (view L s)) 0 in
                   (l, s, EvAffected l)).

(** [involved_faces = {f for v in affected_verts for f in v.link_faces}],
    then [involved_faces.update(expand_faces(get_boundary_faces(
    involved_faces), continuity.value - 1))], passed on as a list. *)
Definition adjacent_faces (m : BMesh) (affected : list nat) : list nat :=
  nodup Nat.eq_dec (flat_map (link_faces m) affected).

Definition involved_faces (m : BMesh) (affected : list nat)
    (c : Continuity) : list nat :=
  let adj := adjacent_faces m affected in
  nodup Nat.eq_dec
    (adj ++ expand_faces H (get_boundary_faces H adj) (continuity_value c - 1)).

Definition triangulate_op (L : Lens) (affected : list nat) (c : Continuity)
    : M unit :=
  atomic (fun s => let fs := involved_faces (view L s) affected c in
                   (tt, update L (triangulate H fs (view L s)) s,
                    EvTriangulate fs)).

Definition select_flush : M unit :=
  atomic (fun s => (tt, s, EvSelectFlush)).

Definition fair_op (L : Lens) (affected : list nat) (order : nat)
    (vw : VertexWeight.t) (lw : LoopWeight.t) : M bool :=
  atomic (fun s => match fair H affected order vw lw (flag s) (view L s) with
                   | (ok, m') => (ok, update L m' s, EvFair order vw lw ok)
                   end).

Definition normal_update : M unit :=
  atomic (fun s => (tt, s, EvNormalUpdate)).

Definition update_edit_mesh : M unit :=
  atomic (fun s => (tt, s, EvUpdateEditMesh)).

(** [bm.to_mesh(mesh)] (the commit of the sculpt worker). *)
Definition to_mesh : M unit :=
  atomic (fun s => (tt, set_mesh (bm s) s, EvToMesh)).

Definition mesh_update : M unit :=
  atomic (fun s => (tt, s, EvMeshUpdate)).

(** One fairing pass with its failure handling, as both workers write it. *)
Definition fair_pass (L : Lens) (label : string) (affected : list nat)
    (order : nat) (vw : VertexWeight.t) (lw : LoopWeight.t)
    (failure : string) : M unit :=
  set_status label ;;
  ok <- fair_op L affected order vw lw ;;
  if negb ok then warn failure ;; cancel else ret tt.

(** [MESH_OT_fair_vertices_internal.WorkerThread.run] *)
Definition run_edit (continuity : Continuity) (tri : bool) : M unit :=
  set_status "Initializing BMesh" ;;
  from_edit_mesh ;;
  c1 <- is_cancelled ;;
  affected <- (if negb c1 then
                 set_status "Determining which vertices are affected" ;;
                 l <- select_verts mesh_lens select ;;
                 ret (Some l)
               else ret None) ;;
  c2 <- is_cancelled ;;
  (if negb c2 && tri then
     set_status "Triangulating involved faces" ;;
     l <- need affected ;;
     triangulate_op mesh_lens l continuity ;;
     select_flush
   else ret tt) ;;
  c3 <- is_cancelled ;;
  (if negb c3 then
     l <- need affected ;;
     fair_pass mesh_lens "[Pre-Fairing] {}" l (continuity_value POS)
       VertexWeight.UNIFORM LoopWeight.UNIFORM "Mesh pre-fairing failed"
   else ret tt) ;;
  c4 <- is_cancelled ;;
  (if negb c4 then
     l <- need affected ;;
     fair_pass mesh_lens "[Fairing] {}" l (continuity_value continuity)
       VertexWeight.VORONOI LoopWeight.COTAN "Mesh fairing failed"
   else ret tt) ;;
  set_status "Updating the mesh" ;;
  normal_update ;;
  update_edit_mesh.

(** The mask test of the sculpt worker. *)
Definition mask_selects (invert_mask : bool) (v : BVert) : bool :=
  (invert_mask && Qle_bool (1 # 2) (mask v)) ||
  (negb invert_mask && Qle_bool (mask v) (1 # 2)).

(** [SCULPT_OT_fair_vertices_internal.WorkerThread.run] (the shape key
    chosen by [shape_key_index] is the one whose coordinates [mesh]
    holds). *)
Definition run_sculpt (continuity : Continuity) (invert_mask : bool) : M unit :=
  set_status "Initializing BMesh" ;;
  from_mesh ;;
  mask_layer <- gets (fun s => has_mask_layer (bm s)) ;;
  c1 <- is_cancelled ;;
  affected <- (if negb c1 then
                 set_status "Determining which vertices are affected" ;;
                 if mask_layer then select_verts bm_lens (mask_selects invert_mask)
                 else ret []
               else ret []) ;;
  c2 <- is_cancelled ;;
  (if negb c2 && Nat.eqb (List.length affected) 0 then cancel else ret tt) ;;
  c3 <- is_cancelled ;;
  (if negb c3 then
     fair_pass bm_lens "[Pre-Fairing] {}" affected (continuity_value POS)
       VertexWeight.UNIFORM LoopWeight.UNIFORM "Mesh pre-fairing failed"
   else ret tt) ;;
  c4 <- is_cancelled ;;
  (if negb c4 then
     fair_pass bm_lens "[Fairing] {}" affected (continuity_value continuity)
       VertexWeight.VORONOI LoopWeight.COTAN "Mesh fairing failed"
   else ret tt) ;;
  c5 <- is_cancelled ;;
  (if negb c5 then
     set_status "Updating the mesh" ;;
     valid <- gets (fun s => is_valid (bm s)) ;;
     if valid then to_mesh ;; mesh_update else ret tt
   else ret tt).

End Worker.

(** Complete runs of the worker threads on a mesh. *)
Definition edit_run (H : Host) (ext : nat -> bool) (c : Continuity)
    (tri : bool) (m : BMesh) : (Exn + unit) * St :=
  run_edit H ext c tri (init_state m).

Definition sculpt_run (H : Host) (ext : nat -> bool) (c : Continuity)
    (invert_mask : bool) (m : BMesh) : (Exn + unit) * St :=
  run_sculpt H ext c invert_mask (init_state m).

(** ** Interactive side: [invoke] and [modal]

    The effects an operator method has on the window manager, the
    worker thread and the sculpt tool settings, in the order it has them. *)

Inductive OpResult := RUNNING_MODAL | FINISHED | CANCELLED.

(** The null stroke of [SCULPT_OT_fair_vertices_internal.invoke]. *)
Record Stroke := mkStroke {
  stroke_name : string;
  location : Z * Z * Z;
  mouse : Z * Z;
  pressure : Z;
  size : Z;
  pen_flip : bool;
  time : Z;
  is_start : bool
}.

Definition null_stroke : Stroke :=
  mkStroke "Null Stroke" (0, 0, 0)%Z (0, 0)%Z 0%Z 0%Z false 0%Z true.

Inductive UiEffect :=
| WorkerStart
| ModalHandlerAdd
| TimerAdd (interval : Q)
| TimerRemove
| HeaderTextSet (text : option string)
| WorkerCancel
| DisplayPopup (message title icon : string)
| ToolSetById (name : string)
| SetUseUnifiedSize (b : bool)
| SetBrushSize (n : Z)
| BrushStroke (stroke : Stroke).

(** Sculpt tool settings.  Selecting a brush tool with
    [wm.tool_set_by_id] makes the brush of that tool's slot the active
    sculpt brush: [brush_of] names the brush of each tool, and
    [tool_settings.sculpt.brush] is [brush_of active_tool]. *)
Record ToolSettings := mkToolSettings {
  active_tool : string;
  use_unified_size : bool;
  brush_size : string -> Z
}.

Section Tools.

Context (brush_of : string -> string).

Definition sculpt_brush (ts : ToolSettings) : string := brush_of (active_tool ts).

Definition apply_effect (ts : ToolSettings) (e : UiEffect) : ToolSettings :=
  match e with
  | ToolSetById name => mkToolSettings name (use_unified_size ts) (brush_size ts)
  | SetUseUnifiedSize b => mkToolSettings (active_tool ts) b (brush_size ts)
  | SetBrushSize n =>
      mkToolSettings (active_tool ts) (use_unified_size ts)
        (fun b => if String.eqb b (sculpt_brush ts) then n else brush_size ts b)
  | _ => ts
  end.

Definition settings_after (effs : list UiEffect) (ts : ToolSettings) : ToolSettings :=
  fold_left apply_effect effs ts.

(** [SCULPT_OT_fair_vertices_internal.invoke]; [tool_name] is the idname
    of the active tool of the current mode. *)
Definition invoke_sculpt (use_dynamic_topology_sculpting : bool)
    (ts0 : ToolSettings) : list UiEffect * OpResult :=
  if use_dynamic_topology_sculpting then
    ([DisplayPopup "Mesh fairing is not supported in dyntopo."
        "Report: Error" "ERROR"], CANCELLED)
  else
    let tool_name := active_tool ts0 in
    let e1 := ToolSetById "builtin_brush.Draw" in
    let ts1 := apply_effect ts0 e1 in
    let use_unified := use_unified_size ts1 in
    let e2 := SetUseUnifiedSize false in
    let ts2 := apply_effect ts1 e2 in
    let brush_sz := brush_size ts2 (sculpt_brush ts2) in
    let e3 := SetBrushSize 2147483647%Z in
    let e4 := BrushStroke null_stroke in
    let e5 := ToolSetById tool_name in
    let e6 := SetUseUnifiedSize use_unified in
    let e7 := SetBrushSize brush_sz in
    ([e1; e2; e3; e4; e5; e6; e7; WorkerStart; ModalHandlerAdd; TimerAdd (1 # 10)],
     RUNNING_MODAL).

End Tools.

(** [MESH_OT_fair_vertices_internal.invoke] *)
Definition invoke_edit : list UiEffect * OpResult :=
  ([WorkerStart; ModalHandlerAdd; TimerAdd (1 # 10)], RUNNING_MODAL).

(** [int(x)]: truncation toward zero. *)
Definition py_int (x : Q) : Z := Z.quot (Qnum x) (Zpos (Qden x)).

Fixpoint repeat_string (s : string) (n : nat) : string :=
  match n with O => "" | S n' => s ++ repeat_string s n' end.

(** ['{:<3}'.format(s)]: left-aligned in a field of width 3. *)
Definition pad_left_align3 (s : string) : string :=
  s ++ repeat_string " " (3 - String.length s).

(** [ellipsis = '.' * (int(self._timer.time_duration * 4) % 4)] *)
Definition ellipsis (time_duration : Q) : string :=
  repeat_string "." (Z.to_nat (Z.modulo (py_int (time_duration * 4)) 4)).

Definition header_text (status : string) (time_duration : Q) : string :=
  status ++ pad_left_align3 (ellipsis time_duration) ++ " ESC: Cancel".

Definition esc_pressed (ev_type ev_value : string) : bool :=
  String.eqb ev_type "ESC" && String.eqb ev_value "PRESS".

(** The branch shared by both [modal] methods while the worker runs. *)
Definition modal_running (status : string) (time_duration : Q)
    (ev_type ev_value : string) : list UiEffect * OpResult :=
  (HeaderTextSet (Some (header_text status time_duration)) ::
     (if esc_pressed ev_type ev_value then [WorkerCancel] else []),
   RUNNING_MODAL).

(** [MESH_OT_fair_vertices_internal.modal]; the worker is queried through
    [is_alive()], [is_cancelled()] and [get_status()]. *)
Definition modal_edit (alive cancelled : bool) (status : string)
    (time_duration : Q) (ev_type ev_value : string) : list UiEffect * OpResult :=
  if alive && negb cancelled then
    modal_running status time_duration ev_type ev_value
  else ([HeaderTextSet None; TimerRemove], FINISHED).

(** [SCULPT_OT_fair_vertices_internal.modal] *)
Definition modal_sculpt (alive cancelled : bool) (status : string)
    (time_duration : Q) (ev_type ev_value : string) : list UiEffect * OpResult :=
  if alive && negb cancelled then
    modal_running status time_duration ev_type ev_value
  else ([HeaderTextSet None; TimerRemove],
        if cancelled then CANCELLED else FINISHED).

(** [MESH_OT_fair_vertices_internal.poll] *)
Record Obj := mkObj { obj_type : string; obj_mode : string; data : BMesh }.

Definition poll_edit (edit_object : option Obj) (space_type : string) : bool :=
  match edit_object with
  | None => false
  | Some o =>
      String.eqb (obj_type o) "MESH" && String.eqb (obj_mode o) "EDIT" &&
      Nat.ltb 0 (total_vert_sel (data o)) && String.eqb space_type "VIEW_3D"
  end.

(** ** Reading a worker's log *)

Definition events (l : list (bool * Event)) : list Event := map snd l.

Definition is_fair (e : Event) : bool :=
  match e with EvFair _ _ _ _ => true | _ => false end.

(** The fairing passes started during a run, in order. *)
Definition fairs (l : list (bool * Event)) : list Event := filter is_fair (events l).

Definition is_warn (e : Event) : bool :=
  match e with EvWarn _ => true | _ => false end.

Definition warnings (l : list (bool * Event)) : list Event :=
  filter is_warn (events l).

(** A fairing pass that returned false, or an [is_cancelled()] check
    that read true. *)
Definition aborts (e : Event) : bool :=
  match e with EvFair _ _ _ false | EvPoll true => true | _ => false end.

Definition aborted (l : list (bool * Event)) : bool :=
  existsb aborts (events l).

(** Whether a fairing pass starts after an abort. *)
Fixpoint fair_after_abort (seen : bool) (l : list (bool * Event)) : bool :=
  match l with
  | [] => false
  | (_, e) :: t => (seen && is_fair e) || fair_after_abort (seen || aborts e) t
  end.

(** Once the flag is set, it stays set. *)
Fixpoint flags_monotone (prev : bool) (l : list (bool * Event)) : bool :=
  match l with
  | [] => true
  | (b, _) :: t => implb prev b && flags_monotone b t
  end.

(** The phases guarded by [if not self.is_cancelled()]. *)
Definition guarded (e : Event) : bool :=
  match e with
  | EvAffected _ | EvTriangulate _ | EvFair _ _ _ _ => true
  | _ => false
  end.

(** Every guarded phase starts after an [is_cancelled()] check that read
    false, with no other check in between; [last] is the value read by
    the latest check (true before the first one). *)
Fixpoint guards_respected (last : bool) (l : list (bool * Event)) : bool :=
  match l with
  | [] => true
  | (_, EvPoll b) :: t => guards_respected b t
  | (_, e) :: t => (negb (guarded e) || negb last) && guards_respected last t
  end.

(** The status label a phase is announced with. *)
Definition phase_label (e : Event) : option string :=
  match e with
  | EvFromEditMesh | EvFromMesh => Some "Initializing BMesh"
  | EvAffected _ => Some "Determining which vertices are affected"
  | EvTriangulate _ => Some "Triangulating involved faces"
  | EvFair _ VertexWeight.UNIFORM _ _ => Some "[Pre-Fairing] {}"
  | EvFair _ VertexWeight.VORONOI _ _ => Some "[Fairing] {}"
  | EvNormalUpdate | EvToMesh => Some "Updating the mesh"
  | _ => None
  end.

(** Every phase is immediately preceded by the status update carrying
    its label. *)
Fixpoint phases_announced (prev : option Event) (l : list (bool * Event)) : bool :=
  match l with
  | [] => true
  | (_, e) :: t =>
      match phase_label e with
      | None => true
      | Some lab =>
          match prev with
          | Some (EvStatus lab') => String.eqb lab lab'
          | _ => false
          end
      end && phases_announced (Some e) t
  end.

(** The faces of the first triangulation, if it comes before any
    fairing pass. *)
Fixpoint triangulated_before_fairing (l : list (bool * Event)) : option (list nat) :=
  match l with
  | [] => None
  | (_, EvTriangulate fs) :: _ => Some fs
  | (_, EvFair _ _ _ _) :: _ => None
  | _ :: t => triangulated_before_fairing t
  end.

(** The selected vertices of a mesh: the affected set of edit mode. *)
Definition selected_verts (m : BMesh) : list nat := indices_where select (verts m) 0.

(** The affected vertices a run works on: those found by its
    determination step, none if it has no such step. *)
Fixpoint affected_of (l : list (bool * Event)) : list nat :=
  match l with
  | [] => []
  | (_, EvAffected vs) :: _ => vs
  | _ :: t => affected_of t
  end.

Definition last_events (n : nat) (l : list (bool * Event)) : list Event :=
  skipn (List.length l - n) (events l).

(** ** Weakest preconditions for the worker monad *)

Definition wp {A} (m : M A) (Q : Exn + A -> St -> Prop) (s : St) : Prop :=
  Q (fst (m s)) (snd (m s)).

(** ** Concrete hosts and meshes used as test inputs *)

(** Fan triangulation of the listed faces. *)
Fixpoint fan (a : nat) (rest : list nat) : list (list nat) :=
  match rest with
  | b :: ((c :: _) as rest') => [a; b; c] :: fan a rest'
  | _ => []
  end.

Definition triangulate_fan (fs : list nat) (m : BMesh) : BMesh :=
  let fix go (i : nat) (l : list (list nat)) :=
    match l with
    | [] => []
    | f :: t =>
        (if existsb (Nat.eqb i) fs then
           match f with a :: rest => fan a rest | [] => [] end
         else [f]) ++ go (S i) t
    end in
  mkBMesh (verts m) (go 0%nat (faces m)) (has_mask_layer m) (is_valid m).

(** A host whose solver always succeeds (or always fails), leaving the
    coordinates as they are. *)
Definition host_const (ok : bool) : Host :=
  mkHost (fun _ _ _ _ _ m => (ok, m)) triangulate_fan (fun fs => fs) (fun fs _ => fs).

Definition vtx (x y : Z) (sel : bool) (mk : Q) : BVert :=
  mkBVert (inject_Z x, inject_Z y, 0) sel mk.

(** One quad with vertex 0 selected and masked. *)
Definition quad_mesh : BMesh :=
  mkBMesh [vtx 0 0 true 1; vtx 1 0 false 0; vtx 1 1 false 0; vtx 0 1 false 0]
    [[0; 1; 2; 3]%nat] true true.

(** The same quad without a paint-mask layer. *)
Definition quad_mesh_unmasked : BMesh :=
  mkBMesh (verts quad_mesh) (faces quad_mesh) false true.

(** Tool settings with the Grab tool active, Grab and Draw brushes of
    sizes 50 and 80. *)
Definition grab_settings : ToolSettings :=
  mkToolSettings "builtin_brush.Grab" true
    (fun b => if String.eqb b "builtin_brush.Grab" then 50%Z
              else if String.eqb b "builtin_brush.Draw" then 80%Z else 35%Z).

(** ** [SCRIPT_OT_install_module.execute]

    [moduleutil.install(name, options)] (not in the embedded sources) is
    the argument [install]: whether pip installed the module. *)

Inductive ReportLevel := INFO | ERROR.

Inductive ScriptEffect :=
| PipInstall (name options : string)
| Report (level : ReportLevel) (message : string)
| ScriptReload.

Definition install_module_execute (install : string -> string -> bool)
    (name options : string) (reload_scripts : bool) : list ScriptEffect * OpResult :=
  if Nat.ltb 0 (String.length name) then
    if install name options then
      ([PipInstall name options;
        Report INFO ("Installed Python module: " ++ name)] ++
       (if reload_scripts then [ScriptReload] else []), FINISHED)
    else
      ([PipInstall name options;
        Report ERROR ("Unable to install Python module: " ++ name)], FINISHED)
  else
    ([Report ERROR ("Unable to install Python module: " ++ name)], FINISHED).

(** The warning a fairing pass logs when it fails. *)
Definition failed_pass_warning (e : Event) : list Event :=
  match e with
  | EvFair _ VertexWeight.UNIFORM _ false => [EvWarn "Mesh pre-fairing failed"]
  | EvFair _ VertexWeight.VORONOI _ false => [EvWarn "Mesh fairing failed"]
  | _ => []
  end.

(** * Proofs *)

(** ** The weakest-precondition calculus *)

Lemma wp_bind {A B} (m : M A) (k : A -> M B) Q s :
  wp m (fun r s' => match r with
                    | inl e => Q (inl e) s'
                    | inr a => wp (k a) Q s'
                    end) s ->
  wp (bind m k) Q s.
Proof. unfold wp, bind. destruct (m s) as [[e | a] s']; auto. Qed.

Lemma wp_ret {A} (a : A) Q s : Q (inr a) s -> wp (ret a) Q s.
Proof. auto. Qed.

Lemma wp_gets {A} (f : St -> A) Q s : Q (inr (f s)) s -> wp (gets f) Q s.
Proof. auto. Qed.

Lemma wp_need {A} (a : A) Q s : Q (inr a) s -> wp (need (Some a)) Q s.
Proof. auto. Qed.

Lemma wp_atomic ext {A} (f : St -> A * St * Event) Q s :
  (let '(a, s', e) := f (env ext s) in Q (inr a) (push_log e s')) ->
  wp (atomic ext f) Q s.
Proof. unfold wp, atomic. destruct (f (env ext s)) as [[a s'] e]. auto. Qed.

(** Symbolic execution of a worker: one step of the program at a time,
    the state kept in normal form, a case split on every external
    [cancel()] that can still change the flag and on every result of the
    solver. *)
Ltac wp_norm :=
  cbv beta iota zeta delta [env push_log set_flag set_status_field set_bm
    set_mesh flag clock status bm mesh log view update mesh_lens bm_lens
    orb andb negb app continuity_value] in *.

Ltac wp_step ext :=
  match goal with
  | |- wp (bind _ _) _ _ => apply wp_bind
  | |- wp (ret _) _ _ => apply wp_ret
  | |- wp (gets _) _ _ => apply wp_gets
  | |- wp (need (Some _)) _ _ => apply wp_need
  | |- wp (if ?b then _ else _) _ _ => destruct b eqn:?
  | |- wp _ _ _ => apply (wp_atomic ext)
  end; wp_norm;
  repeat match goal with
  | |- context [ext ?n] => destruct (ext n)
  | |- context [fair ?H ?a ?b ?c ?d ?e ?f] =>
      destruct (fair H a b c d e f) as [[|] ?]
  end.

Ltac wp_run ext := repeat wp_step ext.

Lemma edit_run_wp H ext c tri m (P : St -> Prop) :
  wp (run_edit H ext c tri) (fun _ s => P s) (init_state m) ->
  P (snd (edit_run H ext c tri m)).
Proof. auto. Qed.

Lemma sculpt_run_wp H ext c inv m (P : St -> Prop) :
  wp (run_sculpt H ext c inv) (fun _ s => P s) (init_state m) ->
  P (snd (sculpt_run H ext c inv m)).
Proof. auto. Qed.

(** Turn a statement about the final state of a run into its weakest
    precondition, and execute the run. *)
Ltac run_sym :=
  lazymatch goal with
  | |- context [snd (edit_run ?H ?ext ?c ?tri ?m)] =>
      pattern (snd (edit_run H ext c tri m));
      lazymatch goal with
      | |- ?P _ => refine (edit_run_wp H ext c tri m P _)
      end;
      unfold run_edit, fair_pass, init_state; wp_run ext
  | |- context [snd (sculpt_run ?H ?ext ?c ?inv ?m)] =>
      pattern (snd (sculpt_run H ext c inv m));
      lazymatch goal with
      | |- ?P _ => refine (sculpt_run_wp H ext c inv m P _)
      end;
      unfold run_sculpt, fair_pass, init_state; wp_run ext
  end.

(** Closing a symbolic path: compute the checkers on its log. *)
Ltac path_done :=
  unfold selected_verts in *; cbn in *; intros;
  repeat match goal with
  | Hx : ?l = [] |- _ => rewrite Hx in *; clear Hx
  end;
  cbn in *; intuition (try congruence).

(** ** Lemmas on the data model *)

Open Scope nat_scope.

Lemma indices_where_spec {A} (p : A -> bool) (xs : list A) (k i : nat) :
  In i (indices_where p xs k) <->
  (k <= i)%nat /\ exists x, nth_error xs (i - k) = Some x /\ p x = true.
Proof.
  revert k. induction xs as [| x xs IH]; intro k; cbn.
  - split; [tauto | intros (_ & y & Hy & _); destruct (i - k); discriminate].
  - rewrite in_app_iff, IH. split.
    + intros [Hi | (Hk & y & Hy & Hp)].
      * destruct (p x) eqn:Hpx; cbn in Hi; [| tauto].
        destruct Hi as [<- | []]. split; [lia |].
        exists x. rewrite Nat.sub_diag. auto.
      * split; [lia |]. exists y.
        replace (i - k) with (S (i - S k)) by lia. auto.
    + intros (Hk & y & Hy & Hp).
      destruct (Nat.eq_dec i k) as [-> | Hne].
      * left. rewrite Nat.sub_diag in Hy. cbn in Hy. injection Hy as ->.
        rewrite Hp. cbn. auto.
      * right. split; [lia |]. exists y.
        replace (i - k) with (S (i - S k)) in Hy by lia. auto.
Qed.

Lemma indices_where_nonempty {A} (p : A -> bool) (xs : list A) (k : nat) :
  (0 < List.length (filter p xs))%nat -> indices_where p xs k <> [].
Proof.
  revert k. induction xs as [| x xs IH]; intros k Hlen; cbn in *; [lia |].
  destruct (p x); cbn in *; [discriminate |]. apply IH; auto.
Qed.

Lemma involved_faces_spec H m affected c f :
  In f (involved_faces H m affected c) <->
  In f (flat_map (link_faces m) affected) \/
  In f (expand_faces H (get_boundary_faces H (adjacent_faces m affected))
          (continuity_value c - 1)).
Proof.
  unfold involved_faces, adjacent_faces.
  rewrite nodup_In, in_app_iff, nodup_In. tauto.
Qed.

Lemma mask_selects_spec (invert_mask : bool) (v : BVert) :
  mask_selects invert_mask v = true <->
  (if invert_mask then (1 # 2 <= mask v)%Q else (mask v <= 1 # 2)%Q).
Proof.
  unfold mask_selects. destruct invert_mask; cbn;
    rewrite ?orb_false_r; apply Qle_bool_iff.
Qed.

(** ** Facts about single runs *)

Lemma edit_affected_selected H ext c tri m b l :
  In (b, EvAffected l) (log (snd (edit_run H ext c tri m))) ->
  l = selected_verts m.
Proof. revert b l. run_sym. all: path_done. Qed.

Lemma sculpt_affected_masked H ext c inv m b l :
  In (b, EvAffected l) (log (snd (sculpt_run H ext c inv m))) ->
  l = indices_where (mask_selects inv) (verts m) 0.
Proof. revert b l. run_sym. all: path_done. Qed.

Lemma edit_triangulation_faces H ext c m :
  flag (snd (edit_run H ext c true m)) = false ->
  triangulated_before_fairing (log (snd (edit_run H ext c true m))) =
    Some (involved_faces H m (selected_verts m) c).
Proof. run_sym. all: path_done. Qed.

(** * Claims *)

(** ** C1 *)

(** C1 (corrected).  In both workers, once a fairing pass returns false or
    an [is_cancelled()] check reads true, the task ends cancelled and no
    further fairing pass starts.  The sculpt-mode worker also skips its
    commit ([bm.to_mesh]), so the mesh data is left as it was.  The
    edit-mode worker writes the live edit-mode BMesh and always ends with
    its update step ([normal_update], [update_edit_mesh]). *)
Theorem C1_abort_skips_rest H ext c tri inv m :
  (aborted (log (snd (sculpt_run H ext c inv m))) = true ->
   flag (snd (sculpt_run H ext c inv m)) = true /\
   fair_after_abort false (log (snd (sculpt_run H ext c inv m))) = false /\
   ~ In EvToMesh (events (log (snd (sculpt_run H ext c inv m)))) /\
   mesh (snd (sculpt_run H ext c inv m)) = m) /\
  (aborted (log (snd (edit_run H ext c tri m))) = true ->
   flag (snd (edit_run H ext c tri m)) = true /\
   fair_after_abort false (log (snd (edit_run H ext c tri m))) = false /\
   last_events 3 (log (snd (edit_run H ext c tri m))) =
     [EvStatus "Updating the mesh"; EvNormalUpdate; EvUpdateEditMesh]).
Proof. split; run_sym; path_done. Qed.

(** C1 counterexample: the pre-fairing pass of an edit-mode run fails,
    yet the run still ends with [update_edit_mesh] and the mesh keeps the
    triangulation made before the failure. *)
Lemma C1_edit_commits_after_failure :
  aborted (log (snd (edit_run (host_const false) (fun _ => false) TAN true quad_mesh)))
    = true /\
  last_events 1 (log (snd (edit_run (host_const false) (fun _ => false) TAN true quad_mesh)))
    = [EvUpdateEditMesh] /\
  faces (mesh (snd (edit_run (host_const false) (fun _ => false) TAN true quad_mesh)))
    <> faces quad_mesh.
Proof. vm_compute. split; [reflexivity | split; [reflexivity | discriminate]]. Qed.

(** ** C2 *)

(** C2.  A run that does not end cancelled invokes the solver exactly
    twice: first with order POSITION and uniform vertex and loop weights,
    then with the requested order (Voronoi and cotangent weights).  In
    every run the second pass starts only after a successful first one. *)
Theorem C2_two_passes H ext c tri inv m :
  (flag (snd (edit_run H ext c tri m)) = false ->
   fairs (log (snd (edit_run H ext c tri m))) =
     [EvFair (continuity_value POS) VertexWeight.UNIFORM LoopWeight.UNIFORM true;
      EvFair (continuity_value c) VertexWeight.VORONOI LoopWeight.COTAN true]) /\
  (fairs (log (snd (edit_run H ext c tri m))) = [] \/
   (exists ok, fairs (log (snd (edit_run H ext c tri m))) =
      [EvFair (continuity_value POS) VertexWeight.UNIFORM LoopWeight.UNIFORM ok]) \/
   (exists ok, fairs (log (snd (edit_run H ext c tri m))) =
      [EvFair (continuity_value POS) VertexWeight.UNIFORM LoopWeight.UNIFORM true;
       EvFair (continuity_value c) VertexWeight.VORONOI LoopWeight.COTAN ok])) /\
  (flag (snd (sculpt_run H ext c inv m)) = false ->
   fairs (log (snd (sculpt_run H ext c inv m))) =
     [EvFair (continuity_value POS) VertexWeight.UNIFORM LoopWeight.UNIFORM true;
      EvFair (continuity_value c) VertexWeight.VORONOI LoopWeight.COTAN true]) /\
  (fairs (log (snd (sculpt_run H ext c inv m))) = [] \/
   (exists ok, fairs (log (snd (sculpt_run H ext c inv m))) =
      [EvFair (continuity_value POS) VertexWeight.UNIFORM LoopWeight.UNIFORM ok]) \/
   (exists ok, fairs (log (snd (sculpt_run H ext c inv m))) =
      [EvFair (continuity_value POS) VertexWeight.UNIFORM LoopWeight.UNIFORM true;
       EvFair (continuity_value c) VertexWeight.VORONOI LoopWeight.COTAN ok])).
Proof.
  split; [| split; [| split]]; run_sym; path_done; eauto.
Qed.

(** ** C3 *)

(** C3.  A sculpt-mode run whose affected set is empty ends cancelled
    without running a fairing pass and without logging a failure.  An
    edit-mode run started on an object accepted by [poll] never has an
    empty affected set: [poll] requires a selected vertex. *)
Theorem C3_empty_affected_no_op H ext c tri inv m obj space_type :
  (affected_of (log (snd (sculpt_run H ext c inv m))) = [] ->
   flag (snd (sculpt_run H ext c inv m)) = true /\
   fairs (log (snd (sculpt_run H ext c inv m))) = [] /\
   warnings (log (snd (sculpt_run H ext c inv m))) = []) /\
  (poll_edit (Some obj) space_type = true ->
   forall b l, In (b, EvAffected l) (log (snd (edit_run H ext c tri (data obj)))) ->
   l <> []).
Proof.
  split.
  - run_sym. all: path_done.
  - intros Hpoll b l Hin. apply edit_affected_selected in Hin. subst l.
    unfold poll_edit in Hpoll.
    apply andb_prop in Hpoll as [Hpoll _]. apply andb_prop in Hpoll as [_ Hsel].
    apply Nat.ltb_lt in Hsel. apply indices_where_nonempty. exact Hsel.
Qed.

(** ** C4 *)

(** C4.  An edit-mode run with triangulation that does not end cancelled
    triangulates, before any fairing pass, exactly the faces adjacent to
    the affected (selected) vertices together with
    [expand_faces(get_boundary_faces(adjacent), continuity.value - 1)]. *)
Theorem C4_triangulated_region H ext c m :
  flag (snd (edit_run H ext c true m)) = false ->
  exists fs,
    triangulated_before_fairing (log (snd (edit_run H ext c true m))) = Some fs /\
    forall f, In f fs <->
      In f (flat_map (link_faces m) (selected_verts m)) \/
      In f (expand_faces H (get_boundary_faces H (adjacent_faces m (selected_verts m)))
              (continuity_value c - 1)).
Proof.
  intros Hflag. exists (involved_faces H m (selected_verts m) c). split.
  - apply edit_triangulation_faces. exact Hflag.
  - intro f. apply involved_faces_spec.
Qed.

(** ** C5 *)

(** C5 (corrected).  The cancellation flag is never cleared during a run,
    and every guarded phase (determining the affected vertices,
    triangulation, pre-fairing, fairing) starts only after its
    [is_cancelled()] check read false: a flag set before that check stops
    the phase, one set between the check and the phase does not. *)
Theorem C5_flag_monotone_and_guards H ext c tri inv m :
  flags_monotone false (log (snd (edit_run H ext c tri m))) = true /\
  guards_respected true (log (snd (edit_run H ext c tri m))) = true /\
  flags_monotone false (log (snd (sculpt_run H ext c inv m))) = true /\
  guards_respected true (log (snd (sculpt_run H ext c inv m))) = true.
Proof. split; [| split; [| split]]; run_sym; path_done; lia. Qed.

(** C5 counterexample: the interactive thread calls [cancel()] right
    after the worker's check before "Determining which vertices are
    affected"; the worker still determines the affected vertices with the
    flag set. *)
Lemma C5_phase_after_flag_set :
  existsb (fun x => fst x && guarded (snd x))
    (log (snd (sculpt_run (host_const true) (fun k => Nat.eqb k 4) TAN true quad_mesh)))
  = true.
Proof. vm_compute. reflexivity. Qed.

(** ** C6 *)

(** C6 (corrected).  The sculpt-mode [modal] finishes CANCELLED whenever
    it sees its worker cancelled, which (the flag never being cleared)
    covers every worker that ends cancelled, the empty-set no-op
    included.  The edit-mode [modal] finishes FINISHED whenever it
    stops, cancelled worker or not. *)
Theorem C6_modal_results alive cancelled status_text time_duration ev_type ev_value :
  (cancelled = true ->
   snd (modal_sculpt alive cancelled status_text time_duration ev_type ev_value)
     = CANCELLED) /\
  (alive && negb cancelled = false ->
   snd (modal_edit alive cancelled status_text time_duration ev_type ev_value)
     = FINISHED).
Proof.
  split; intros Hc.
  - subst cancelled. unfold modal_sculpt. rewrite andb_false_r. reflexivity.
  - unfold modal_edit. rewrite Hc. reflexivity.
Qed.

(** C6 counterexample: an edit-mode worker whose pre-fairing fails ends
    cancelled, and the edit-mode [modal] then finishes FINISHED. *)
Lemma C6_edit_modal_finishes_cancelled :
  flag (snd (edit_run (host_const false) (fun _ => false) TAN false quad_mesh)) = true /\
  snd (modal_edit false
         (flag (snd (edit_run (host_const false) (fun _ => false) TAN false quad_mesh)))
         "Updating the mesh" 0%Q "TIMER" "NOTHING") = FINISHED.
Proof. vm_compute. split; reflexivity. Qed.

(** ** C7 *)

(** C7.  Both [invoke] methods add a 0.1 s timer.  While the worker is
    alive and not cancelled, [modal] shows the worker's status followed by
    the animated ellipsis and "ESC: Cancel", cancels the worker exactly
    when ESC is pressed, and keeps running.  Both workers announce every
    phase with its status label right before it. *)
Theorem C7_polling_and_status brush_of ts status_text time_duration ev_type ev_value
    H ext c tri inv m :
  In (TimerAdd (1 # 10)) (fst invoke_edit) /\
  In (TimerAdd (1 # 10)) (fst (invoke_sculpt brush_of false ts)) /\
  modal_edit true false status_text time_duration ev_type ev_value =
    (HeaderTextSet (Some (status_text ++ pad_left_align3 (ellipsis time_duration)
                          ++ " ESC: Cancel")%string) ::
       (if esc_pressed ev_type ev_value then [WorkerCancel] else []),
     RUNNING_MODAL) /\
  modal_sculpt true false status_text time_duration ev_type ev_value =
    (HeaderTextSet (Some (status_text ++ pad_left_align3 (ellipsis time_duration)
                          ++ " ESC: Cancel")%string) ::
       (if esc_pressed ev_type ev_value then [WorkerCancel] else []),
     RUNNING_MODAL) /\
  phases_announced None (log (snd (edit_run H ext c tri m))) = true /\
  phases_announced None (log (snd (sculpt_run H ext c inv m))) = true.
Proof.
  split; [cbn; tauto |].
  split; [cbn; tauto |].
  split; [reflexivity |].
  split; [reflexivity |].
  split; run_sym; path_done.
Qed.

(** ** C8 *)

(** C8.  The affected set of a sculpt-mode run is the set of vertices
    whose mask is at least 0.5 with [invert_mask], at most 0.5 without;
    a mesh without a paint-mask layer gives an empty set and a cancelled
    run with no fairing pass. *)
Theorem C8_mask_threshold H ext c inv m :
  (forall b l, In (b, EvAffected l) (log (snd (sculpt_run H ext c inv m))) ->
   forall i, In i l <->
     exists v, nth_error (verts m) i = Some v /\
       (if inv then (1 # 2 <= mask v)%Q else (mask v <= 1 # 2)%Q)) /\
  (has_mask_layer m = false ->
   affected_of (log (snd (sculpt_run H ext c inv m))) = [] /\
   flag (snd (sculpt_run H ext c inv m)) = true /\
   fairs (log (snd (sculpt_run H ext c inv m))) = []).
Proof.
  split.
  - intros b l Hin i. apply sculpt_affected_masked in Hin. subst l.
    rewrite indices_where_spec, Nat.sub_0_r.
    split.
    + intros (_ & v & Hv & Hp). exists v. split; [exact Hv |].
      apply mask_selects_spec. exact Hp.
    + intros (v & Hv & Hp). split; [lia |]. exists v. split; [exact Hv |].
      apply mask_selects_spec. exact Hp.
  - run_sym. all: path_done.
Qed.

(** ** C9 *)

(** C9.  With dynamic topology enabled, the sculpt-mode [invoke] only
    shows the error popup and returns CANCELLED: no tool change, no
    stroke, no worker, and the tool settings are untouched. *)
Theorem C9_dyntopo_refused brush_of ts :
  invoke_sculpt brush_of true ts =
    ([DisplayPopup "Mesh fairing is not supported in dyntopo." "Report: Error" "ERROR"],
     CANCELLED) /\
  settings_after brush_of (fst (invoke_sculpt brush_of true ts)) ts = ts.
Proof. split; reflexivity. Qed.

(** ** C10 *)

(** C10 (failing input).  With the Grab tool active and each tool
    owning its own brush, [invoke] reads and saves the Draw brush's size,
    switches back to Grab, and only then writes the saved size: the Grab
    brush ends with the Draw brush's size 80 and the Draw brush keeps the
    enlarged size.  The tool id and [use_unified_size] are restored. *)
Theorem C10_brush_size_restored_on_wrong_brush :
  active_tool (settings_after (fun t => t)
                 (fst (invoke_sculpt (fun t => t) false grab_settings)) grab_settings)
    = "builtin_brush.Grab" /\
  use_unified_size (settings_after (fun t => t)
                      (fst (invoke_sculpt (fun t => t) false grab_settings)) grab_settings)
    = true /\
  brush_size (settings_after (fun t => t)
                (fst (invoke_sculpt (fun t => t) false grab_settings)) grab_settings)
    "builtin_brush.Grab" = 80%Z /\
  brush_size (settings_after (fun t => t)
                (fst (invoke_sculpt (fun t => t) false grab_settings)) grab_settings)
    "builtin_brush.Draw" = 2147483647%Z.
Proof. vm_compute. repeat split; reflexivity. Qed.

(** * Witnesses *)

Lemma C1_witness :
  aborted (log (snd (sculpt_run (host_const false) (fun _ => false) TAN true quad_mesh)))
    = true /\
  aborted (log (snd (edit_run (host_const false) (fun _ => false) TAN true quad_mesh)))
    = true /\
  mesh (snd (sculpt_run (host_const false) (fun _ => false) TAN true quad_mesh))
    = quad_mesh /\
  last_events 3 (log (snd (edit_run (host_const false) (fun _ => false) TAN true quad_mesh)))
    = [EvStatus "Updating the mesh"; EvNormalUpdate; EvUpdateEditMesh].
Proof.
  destruct (C1_abort_skips_rest (host_const false) (fun _ => false) TAN true true quad_mesh)
    as [Hs He].
  split; [vm_compute; reflexivity |].
  split; [vm_compute; reflexivity |].
  split.
  - apply Hs. vm_compute. reflexivity.
  - apply He. vm_compute. reflexivity.
Defined.

Lemma C2_witness :
  flag (snd (edit_run (host_const true) (fun _ => false) CURV false quad_mesh)) = false /\
  fairs (log (snd (edit_run (host_const true) (fun _ => false) CURV false quad_mesh))) =
    [EvFair 1 VertexWeight.UNIFORM LoopWeight.UNIFORM true;
     EvFair 3 VertexWeight.VORONOI LoopWeight.COTAN true].
Proof.
  split; [vm_compute; reflexivity |].
  apply (C2_two_passes (host_const true) (fun _ => false) CURV false true quad_mesh).
  vm_compute. reflexivity.
Defined.

Lemma C3_witness :
  affected_of (log (snd (sculpt_run (host_const true) (fun _ => false) TAN true
                                    quad_mesh_unmasked))) = [] /\
  flag (snd (sculpt_run (host_const true) (fun _ => false) TAN true quad_mesh_unmasked))
    = true /\
  poll_edit (Some (mkObj "MESH" "EDIT" quad_mesh)) "VIEW_3D" = true /\
  [0] <> [].
Proof.
  destruct (C3_empty_affected_no_op (host_const true) (fun _ => false) TAN true true
              quad_mesh_unmasked (mkObj "MESH" "EDIT" quad_mesh) "VIEW_3D") as [Hs He].
  split; [vm_compute; reflexivity |].
  split; [apply Hs; vm_compute; reflexivity |].
  split; [vm_compute; reflexivity |].
  apply (He eq_refl false). vm_compute. tauto.
Defined.

Lemma C4_witness :
  flag (snd (edit_run (host_const true) (fun _ => false) TAN true quad_mesh)) = false /\
  exists fs,
    triangulated_before_fairing
      (log (snd (edit_run (host_const true) (fun _ => false) TAN true quad_mesh))) = Some fs /\
    forall f, In f fs <->
      In f (flat_map (link_faces quad_mesh) (selected_verts quad_mesh)) \/
      In f (expand_faces (host_const true)
              (get_boundary_faces (host_const true)
                 (adjacent_faces quad_mesh (selected_verts quad_mesh)))
              (continuity_value TAN - 1)).
Proof.
  split; [vm_compute; reflexivity |].
  apply C4_triangulated_region. vm_compute. reflexivity.
Defined.

Lemma C6_witness :
  snd (modal_sculpt true true "[Fairing] {}" (1 # 2) "ESC" "PRESS") = CANCELLED /\
  snd (modal_edit true true "[Fairing] {}" (1 # 2) "ESC" "PRESS") = FINISHED.
Proof.
  destruct (C6_modal_results true true "[Fairing] {}" (1 # 2) "ESC" "PRESS") as [Hs He].
  split; [apply Hs | apply He]; reflexivity.
Defined.

Lemma C8_witness :
  In (false, EvAffected [0])
    (log (snd (sculpt_run (host_const true) (fun _ => false) TAN true quad_mesh))) /\
  has_mask_layer quad_mesh_unmasked = false /\
  (In 0 [0] <-> exists v, nth_error (verts quad_mesh) 0 = Some v /\ (1 # 2 <= mask v)%Q) /\
  fairs (log (snd (sculpt_run (host_const true) (fun _ => false) TAN true
                              quad_mesh_unmasked))) = [].
Proof.
  split; [vm_compute; tauto |].
  split; [reflexivity |].
  split.
  - apply (proj1 (C8_mask_threshold (host_const true) (fun _ => false) TAN true quad_mesh)
             false).
    vm_compute. tauto.
  - apply (proj2 (C8_mask_threshold (host_const true) (fun _ => false) TAN true
                    quad_mesh_unmasked)).
    reflexivity.
Defined.

(** * Further properties of the operators *)

Lemma edit_run_wp_full H ext c tri m (Q : Exn + unit -> St -> Prop) :
  wp (run_edit H ext c tri) Q (init_state m) ->
  Q (fst (edit_run H ext c tri m)) (snd (edit_run H ext c tri m)).
Proof. auto. Qed.

Lemma sculpt_run_wp_full H ext c inv m (Q : Exn + unit -> St -> Prop) :
  wp (run_sculpt H ext c inv) Q (init_state m) ->
  Q (fst (sculpt_run H ext c inv m)) (snd (sculpt_run H ext c inv m)).
Proof. auto. Qed.

(** The edit-mode worker binds [affected_verts] only when its first
    check reads false, yet it never reads the name unbound: under every
    interleaving of [cancel()] calls and every solver outcome, both
    workers run to completion without raising. *)
Theorem X_workers_never_raise H ext c tri inv m :
  fst (edit_run H ext c tri m) = inr tt /\ fst (sculpt_run H ext c inv m) = inr tt.
Proof.
  split.
  - refine (edit_run_wp_full H ext c tri m (fun r _ => r = inr tt) _).
    unfold run_edit, fair_pass, init_state; wp_run ext. all: reflexivity.
  - refine (sculpt_run_wp_full H ext c inv m (fun r _ => r = inr tt) _).
    unfold run_sculpt, fair_pass, init_state; wp_run ext. all: reflexivity.
Qed.

(** Each worker logs a warning exactly for each fairing pass that
    returned false ("Mesh pre-fairing failed" or "Mesh fairing failed"),
    so at most one warning per run. *)
Theorem X_warning_per_failed_pass H ext c tri inv m :
  warnings (log (snd (edit_run H ext c tri m))) =
    flat_map failed_pass_warning (fairs (log (snd (edit_run H ext c tri m)))) /\
  List.length (warnings (log (snd (edit_run H ext c tri m)))) <= 1 /\
  warnings (log (snd (sculpt_run H ext c inv m))) =
    flat_map failed_pass_warning (fairs (log (snd (sculpt_run H ext c inv m)))) /\
  List.length (warnings (log (snd (sculpt_run H ext c inv m)))) <= 1.
Proof. split; [| split; [| split]]; run_sym; path_done; lia. Qed.

(** The sculpt-mode worker changes the mesh data only through its
    commit: either the log has no [to_mesh] and the mesh is unchanged, or
    it has one and the mesh is the worker's BMesh. *)
Theorem X_sculpt_mesh_only_via_commit H ext c inv m :
  (~ In EvToMesh (events (log (snd (sculpt_run H ext c inv m)))) /\
   mesh (snd (sculpt_run H ext c inv m)) = m) \/
  (In EvToMesh (events (log (snd (sculpt_run H ext c inv m)))) /\
   mesh (snd (sculpt_run H ext c inv m)) = bm (snd (sculpt_run H ext c inv m))).
Proof.
  run_sym. all: first [left; path_done; fail | right; path_done].
Qed.

(** A sculpt-mode run that ends not cancelled commits exactly when its
    BMesh is still valid. *)
Theorem X_sculpt_commit_when_valid H ext c inv m :
  flag (snd (sculpt_run H ext c inv m)) = false ->
  (In EvToMesh (events (log (snd (sculpt_run H ext c inv m)))) <->
   is_valid (bm (snd (sculpt_run H ext c inv m))) = true).
Proof. run_sym. all: path_done. Qed.

Lemma X_sculpt_commit_when_valid_witness :
  flag (snd (sculpt_run (host_const true) (fun _ => false) TAN true quad_mesh)) = false /\
  (In EvToMesh (events (log (snd (sculpt_run (host_const true) (fun _ => false) TAN true
                                            quad_mesh)))) <->
   is_valid (bm (snd (sculpt_run (host_const true) (fun _ => false) TAN true quad_mesh)))
     = true).
Proof.
  split; [vm_compute; reflexivity |].
  apply X_sculpt_commit_when_valid. vm_compute. reflexivity.
Defined.

(** Without the triangulate option the edit-mode worker never
    triangulates. *)
Theorem X_edit_no_triangulation_unless_requested H ext c m :
  forall b fs, ~ In (b, EvTriangulate fs) (log (snd (edit_run H ext c false m))).
Proof. run_sym. all: path_done. Qed.

(** The edit-mode worker's affected vertices are exactly the selected
    vertices of the mesh. *)
Theorem X_edit_affected_are_selected H ext c tri m :
  forall b l, In (b, EvAffected l) (log (snd (edit_run H ext c tri m))) ->
  forall i, In i l <-> exists v, nth_error (verts m) i = Some v /\ select v = true.
Proof.
  intros b l Hin i. apply edit_affected_selected in Hin. subst l.
  unfold selected_verts. rewrite indices_where_spec, Nat.sub_0_r.
  split; [intros (_ & H1) | intros H1; split; [lia |]]; exact H1.
Qed.

Lemma X_edit_affected_are_selected_witness :
  In (false, EvAffected [0])
    (log (snd (edit_run (host_const true) (fun _ => false) TAN false quad_mesh))) /\
  (In 0 [0] <-> exists v, nth_error (verts quad_mesh) 0 = Some v /\ select v = true).
Proof.
  split; [vm_compute; tauto |].
  apply (X_edit_affected_are_selected (host_const true) (fun _ => false) TAN false
           quad_mesh false).
  vm_compute. tauto.
Defined.

(** The null stroke is the only stroke of the sculpt-mode [invoke]; it is
    applied with the Draw tool active, unified size off and the active
    brush at size [0x7fffffff], and the worker starts after it. *)
Theorem X_sculpt_stroke_settings (brush_of : string -> string) ts :
  exists pre post,
    fst (invoke_sculpt brush_of false ts) = pre ++ BrushStroke null_stroke :: post /\
    active_tool (settings_after brush_of pre ts) = "builtin_brush.Draw" /\
    use_unified_size (settings_after brush_of pre ts) = false /\
    brush_size (settings_after brush_of pre ts)
      (sculpt_brush brush_of (settings_after brush_of pre ts)) = 2147483647%Z /\
    In WorkerStart post /\
    (forall st, ~ In (BrushStroke st) pre /\ ~ In (BrushStroke st) post).
Proof.
  eexists [_; _; _], _. split; [reflexivity |].
  repeat split; cbn.
  - rewrite String.eqb_refl. reflexivity.
  - tauto.
  - intuition discriminate.
  - intuition discriminate.
Qed.

(** The sculpt-mode [invoke] always gives back the original tool and
    unified-size setting. *)
Theorem X_sculpt_invoke_restores_tool (brush_of : string -> string) ts :
  active_tool (settings_after brush_of (fst (invoke_sculpt brush_of false ts)) ts)
    = active_tool ts /\
  use_unified_size (settings_after brush_of (fst (invoke_sculpt brush_of false ts)) ts)
    = use_unified_size ts.
Proof. split; reflexivity. Qed.

(** When the original tool uses the same brush as the Draw tool, the
    sculpt-mode [invoke] leaves every brush size as it found it. *)
Theorem X_sculpt_invoke_restores_sizes (brush_of : string -> string) ts
    (Hshared : brush_of (active_tool ts) = brush_of "builtin_brush.Draw") :
  forall b,
    brush_size (settings_after brush_of (fst (invoke_sculpt brush_of false ts)) ts) b
      = brush_size ts b.
Proof.
  intro b. cbn. unfold sculpt_brush; cbn. rewrite Hshared.
  destruct (String.eqb_spec b (brush_of "builtin_brush.Draw")); subst; reflexivity.
Qed.

Lemma X_sculpt_invoke_restores_sizes_witness :
  let ts := mkToolSettings "builtin_brush.Draw" true (fun _ => 50%Z) in
  (fun _ : string => "SculptDraw") (active_tool ts) =
    (fun _ : string => "SculptDraw") "builtin_brush.Draw" /\
  brush_size (settings_after (fun _ => "SculptDraw")
                (fst (invoke_sculpt (fun _ => "SculptDraw") false ts)) ts) "SculptDraw"
    = brush_size ts "SculptDraw".
Proof.
  cbv zeta. split; [reflexivity |].
  apply (X_sculpt_invoke_restores_sizes (fun _ => "SculptDraw")
           (mkToolSettings "builtin_brush.Draw" true (fun _ => 50%Z))).
  reflexivity.
Defined.

Lemma string_length_app (s1 s2 : string) :
  String.length (s1 ++ s2) = String.length s1 + String.length s2.
Proof. induction s1; cbn; auto. Qed.

Lemma repeat_string_length (s : string) n :
  String.length (repeat_string s n) = n * String.length s.
Proof. induction n; cbn; [reflexivity |]. rewrite string_length_app. lia. Qed.

(** The modal header has a fixed width: the animated ellipsis is always
    padded to three characters, whatever the timer reads. *)
Theorem X_header_fixed_width status time_duration :
  String.length (header_text status time_duration) = String.length status + 15.
Proof.
  unfold header_text, pad_left_align3, ellipsis.
  rewrite !string_length_app, !repeat_string_length.
  pose proof (Z.mod_pos_bound (py_int (time_duration * 4)) 4 ltac:(lia)).
  assert (Z.to_nat (py_int (time_duration * 4) mod 4) <= 3) by lia.
  cbn [String.length]. lia.
Qed.

(** [SCRIPT_OT_install_module.execute] always finishes; pip is called
    only for a non-empty name; the success report and the script reload
    follow only a successful install, and the error report is given
    otherwise. *)
Theorem X_install_module_outcome install name options reload_scripts :
  snd (install_module_execute install name options reload_scripts) = FINISHED /\
  ((exists o, In (PipInstall name o) (fst (install_module_execute install name options
                                              reload_scripts))) <-> name <> "") /\
  (In ScriptReload (fst (install_module_execute install name options reload_scripts)) <->
   name <> "" /\ install name options = true /\ reload_scripts = true) /\
  (In (Report INFO ("Installed Python module: " ++ name))
      (fst (install_module_execute install name options reload_scripts)) <->
   name <> "" /\ install name options = true) /\
  (In (Report ERROR ("Unable to install Python module: " ++ name))
      (fst (install_module_execute install name options reload_scripts)) <->
   name = "" \/ install name options = false).
Proof.
  unfold install_module_execute.
  destruct name as [|a s]; cbn [String.length Nat.ltb Nat.leb].
  - cbn. repeat split; intuition (try congruence); firstorder congruence.
  - destruct (install (String a s) options), reload_scripts; cbn;
      repeat split; intuition (try congruence);
      try (eexists; left; reflexivity); firstorder congruence.
Qed.
